(** * pushprom-python-client: a shallow embedding and its properties

    The client consists of [credentials.py] (host/port to base URL),
    [errors.py] (two exception classes) and [metric_senders.py] (a base
    sender that POSTs one JSON document per call, plus the [Gauge],
    [Counter], [Histogram] and [Summary] subclasses).

    Conventions of the embedding:
    - arguments carry the type of their Python annotation, except where
      the code itself inspects the dynamic type ([isinstance], [len]) or
      forwards the value untouched into the JSON body; those arguments
      are dynamically typed values [pyval];
    - Python [int] is [Z], Python [float] is the kernel's binary64
      [float], [str] is [string], a [dict] with string keys is a
      [gmap string _];
    - a constructor is a computation in the exception monad [Result];
      a method is a computation in [Method O], which threads the receiver
      [self : O] and the list of calls of [requests.post] made so far,
      and may raise. An exception leaves the state as it was when it was raised,
      as in Python. *)

From Stdlib Require Import ZArith Floats.
From stdpp Require Import gmap strings list.

Set Warnings "-register-all,-inexact-float".
#[local] Open Scope Z_scope.

(** ** Python values *)

Inductive pyval : Type :=
| PyNone
| PyInt (z : Z)
| PyFloat (f : float)
| PyStr (s : string)
| PyList (l : list pyval)
| PyDict (d : gmap string pyval).

(** [isinstance(v, str)] and [isinstance(v, dict)]. *)
Definition isinstance_str (v : pyval) : bool :=
  match v with PyStr _ => true | _ => false end.

Definition isinstance_dict (v : pyval) : bool :=
  match v with PyDict _ => true | _ => false end.

(** The name Python prints for the type of a value, used in the message
    of the [TypeError] that [len] raises. *)
Definition type_name (v : pyval) : string :=
  match v with
  | PyNone => "NoneType"
  | PyInt _ => "int"
  | PyFloat _ => "float"
  | PyStr _ => "str"
  | PyList _ => "list"
  | PyDict _ => "dict"
  end.

(** ** Exceptions ([errors.py] and the built-in ones the code raises)

    [NoLabelsError] and [NotSortedError] are the two classes of
    [errors.py]; both derive from [ValueError]. [IndexError] is the
    built-in raised by indexing an empty sequence. [RequestException]
    stands for whatever [requests.post] raises. *)

Inductive exn : Type :=
| ValueError (msg : string)
| TypeError (msg : string)
| IndexError (msg : string)
| NotImplementedError (msg : string)
| NoLabelsError (msg : string)
| NotSortedError (msg : string)
| RequestException (msg : string).

(** [isinstance(e, ValueError)], following the class hierarchy. *)
Definition is_ValueError (e : exn) : bool :=
  match e with
  | ValueError _ | NoLabelsError _ | NotSortedError _ => true
  | _ => false
  end.

(** ** The exception monad of constructors *)

Definition Result (A : Type) : Type := exn + A.

Definition raise {A : Type} (e : exn) : Result A := inl e.

#[global] Instance Result_ret : MRet Result := fun _ a => inr a.

#[global] Instance Result_bind : MBind Result := fun _ _ k m =>
  match m with
  | inl e => inl e
  | inr a => k a
  end.

(** [len(v)]: defined on strings, lists and dicts. *)
Definition py_len (v : pyval) : Result Z :=
  match v with
  | PyStr s => mret (Z.of_nat (String.length s))
  | PyList l => mret (Z.of_nat (List.length l))
  | PyDict d => mret (Z.of_nat (size d))
  | _ => raise (TypeError ("object of type '" +:+ type_name v +:+ "' has no len()"))
  end.

(** ** [credentials.py] *)

Record Credentials : Type := mkCredentials { host : string; port : string }.

(** [Credentials.__init__]: both fields are stored as given. *)
Definition Credentials_init (host port : string) : Credentials :=
  {| host := host; port := port |}.

(** The [address] property: the f-string [http://{self.host}:{self.port}]. *)
Definition address (self : Credentials) : string :=
  "http://" +:+ host self +:+ ":" +:+ port self.

(** ** [BasePushpromMetricSender] *)

Record BasePushpromMetricSender : Type := mkBase {
  url : string;
  metric_name : string;
  metric_type : string;
  help : string
}.

(** [BasePushpromMetricSender.__init__]. The statements run in source
    order: the name check comes before the help check, so an empty name
    together with a non-string help raises [ValueError]. *)
Definition BasePushpromMetricSender_init
    (credentials : Credentials) (metric_name : string)
    (help_string : pyval) (metric_type : string)
  : Result BasePushpromMetricSender :=
  let self_url := address credentials in
  self_metric_name ←
    (if 0 <? Z.of_nat (String.length metric_name)
     then mret metric_name
     else raise (ValueError "Field metric_name should not be empty!"));
  let self_metric_type :=
    if String.eqb metric_type "counter"
       || String.eqb metric_type "gauge"
       || String.eqb metric_type "histogram"
       || String.eqb metric_type "summary"
    then metric_type
    else "gauge" in
  self_help ←
    match help_string with
    | PyStr s => mret s
    | _ => raise (TypeError "Field help should be str.")
    end;
  mret {| url := self_url;
          metric_name := self_metric_name;
          metric_type := self_metric_type;
          help := self_help |}.

(** ** HTTP and the monad of methods *)

(** The arguments of one call [requests.post(url, json=...)], and the
    part of [requests.Response] a caller inspects. *)
Record Request : Type := mkRequest { req_url : string; req_json : pyval }.

Record Response : Type := mkResponse { status_code : Z; text : string }.

(** The state a method runs in: its receiver and, in [sent], the calls
    of [requests.post] made so far, oldest first. An entry records that
    the call was made and with which arguments; whether [requests] got as
    far as transmitting anything is part of the call's outcome, not of
    the log. *)
Record Frame (O : Type) : Type := mkFrame { self : O; sent : list Request }.
Arguments mkFrame {O} _ _.
Arguments self {O} _.
Arguments sent {O} _.

Definition Method (O A : Type) : Type := Frame O → Result A * Frame O.

#[global] Instance Method_ret {O} : MRet (Method O) := fun _ a st => (inr a, st).

#[global] Instance Method_bind {O} : MBind (Method O) := fun _ _ k m st =>
  match m st with
  | (inl e, st') => (inl e, st')
  | (inr a, st') => k a st'
  end.

Definition throw {O A : Type} (e : exn) : Method O A := fun st => (inl e, st).

(** Run a pure, possibly failing computation inside a method. *)
Definition lift {O A : Type} (r : Result A) : Method O A := fun st => (r, st).

(** Attribute read [self.f] and attribute update. *)
Definition getattr {O A : Type} (f : O → A) : Method O A :=
  fun st => (inr (f (self st)), st).

Definition setattr {O : Type} (upd : O → O) : Method O unit :=
  fun st => (inr tt, mkFrame (upd (self st)) (sent st)).

(** A subclass instance contains the attributes of its base class. *)
Class Inherits (O B : Type) : Type := {
  upcast : O → B;
  with_base : B → O → O
}.

(** [super().m(...)]: run a base-class method on the same object. *)
Definition super {O B A : Type} `{Inherits O B} (m : Method B A) : Method O A :=
  fun st =>
    let '(r, st') := m (mkFrame (upcast (self st)) (sent st)) in
    (r, mkFrame (with_base (self st') (self st)) (sent st')).

(** Call a method [n] times in a row, stopping at the first exception. *)
Fixpoint times {O : Type} (n : nat) (m : Method O unit) : Method O unit :=
  match n with
  | 0%nat => mret tt
  | S n' => m;; times n' m
  end.

(** Every call is answered with [200 OK]. *)
Definition always_ok (history : list Request) (rq : Request) : string + Response :=
  inr (mkResponse 200 "ok").

(** Every call raises, as when the server cannot be reached. *)
Definition unreachable (history : list Request) (rq : Request) : string + Response :=
  inl "Connection refused".

(** ** [Gauge], [Counter], [Histogram], [Summary]: data and constructors *)

(** The private attribute [self.__counter] of a class [C] is the field
    [C__counter]; the [counter] property [C_counter] reads it. *)
Record Gauge : Type := mkGauge {
  Gauge_base : BasePushpromMetricSender;
  Gauge__counter : float
}.

#[global] Instance Gauge_inherits : Inherits Gauge BasePushpromMetricSender := {
  upcast := Gauge_base;
  with_base b g := mkGauge b (Gauge__counter g)
}.

Definition Gauge_init (credentials : Credentials) (metric_name : string)
    (help_string : pyval) : Result Gauge :=
  base ← BasePushpromMetricSender_init credentials metric_name help_string "gauge";
  mret {| Gauge_base := base; Gauge__counter := 0.0%float |}.

Definition Gauge_counter (self : Gauge) : float := Gauge__counter self.

Record Counter : Type := mkCounter {
  Counter_base : BasePushpromMetricSender;
  Counter__counter : Z
}.

#[global] Instance Counter_inherits : Inherits Counter BasePushpromMetricSender := {
  upcast := Counter_base;
  with_base b c := mkCounter b (Counter__counter c)
}.

Definition Counter_init (credentials : Credentials) (metric_name : string)
    (help_string : pyval) : Result Counter :=
  base ← BasePushpromMetricSender_init credentials metric_name help_string "counter";
  mret {| Counter_base := base; Counter__counter := 0 |}.

Definition Counter_counter (self : Counter) : Z := Counter__counter self.

(** [Gauge.increase_by], [Gauge.decrease_by]: binary64 [+=] and [-=]. *)
Definition Gauge_increase_by (value : float) : Method Gauge unit :=
  setattr (fun g => mkGauge (Gauge_base g) (Gauge__counter g + value)%float).

Definition Gauge_decrease_by (value : float) : Method Gauge unit :=
  setattr (fun g => mkGauge (Gauge_base g) (Gauge__counter g - value)%float).

(** [Counter.increase], [Counter.reset]. *)
Definition Counter_increase : Method Counter unit :=
  setattr (fun c => mkCounter (Counter_base c) (Counter__counter c + 1)).

Definition Counter_reset : Method Counter unit :=
  setattr (fun c => mkCounter (Counter_base c) 0).

(** [Histogram.__init__] starts with an unconditional [raise]; the
    statements after it are kept as written. Bucket bounds are a tuple
    (as the default) or a list of floats. *)
Inductive bounds : Type :=
| BoundsTuple (items : list float)
| BoundsList (items : list float).

Definition bounds_items (b : bounds) : list float :=
  match b with BoundsTuple l | BoundsList l => l end.

Definition default_buckets : bounds :=
  BoundsTuple [0.005; 0.01; 0.025; 0.05; 0.075; 0.1; 0.25; 0.5; 0.75;
               1.0; 2.5; 5.0; 7.5; 10.0; infinity]%float.

(** [sorted(xs)] on floats: a stable sort that compares with [<] only.
    An element is put in front of the already sorted elements to its
    right, past those that are smaller. On bounds without NaN this is
    the list Python returns; with a NaN among them [<] is no order and
    Python's result depends on its merge strategy, which is not
    modelled. *)
Fixpoint insert_sorted (x : float) (l : list float) : list float :=
  match l with
  | [] => [x]
  | y :: l' => if (y <? x)%float then y :: insert_sorted x l' else x :: l
  end.

Definition sorted (l : list float) : list float := foldr insert_sorted [] l.

Fixpoint floats_eq (l1 l2 : list float) : bool :=
  match l1, l2 with
  | [], [] => true
  | x :: l1', y :: l2' => (x =? y)%float && floats_eq l1' l2'
  | _, _ => false
  end.

(** [buckets_bounds != sorted(buckets_bounds)]: [sorted] returns a list,
    and a tuple never equals a list. Lists are compared by value; Python
    also takes an element to equal itself, which differs for NaN only. *)
Definition ne_sorted (b : bounds) : bool :=
  match b with
  | BoundsTuple _ => true
  | BoundsList l => negb (floats_eq l (sorted l))
  end.

(** [d[k] = v] on a dict with float keys, kept in insertion order. *)
Fixpoint dict_set (k : float) (v : Z) (d : list (float * Z)) : list (float * Z) :=
  match d with
  | [] => [(k, v)]
  | (k', v') :: d' => if (k' =? k)%float then (k', v) :: d' else (k', v') :: dict_set k v d'
  end.

Record Histogram : Type := mkHistogram {
  Histogram_base : BasePushpromMetricSender;
  Histogram__sum : float;
  Histogram__count : Z;
  Histogram__buckets : list (float * Z)
}.

Definition Histogram_init (credentials : Credentials) (metric_name : string)
    (help_string : pyval) (buckets_bounds : bounds) : Result Histogram :=
  raise (A := unit) (NotImplementedError "Kindly sorry: this class is not implemented yet.");;
  base ← BasePushpromMetricSender_init credentials metric_name help_string "histogram";
  let self_sum := 0.0%float in
  let self_count := 0 in
  let self_buckets := [] in
  (if ne_sorted buckets_bounds
   then raise (NotSortedError "Buckets bounds are not sorted.")
   else mret tt);;
  final ←
    match last (bounds_items buckets_bounds) with
    | Some x => mret x
    | None => raise (IndexError "list index out of range")
    end;
  (* [list.append] returns [None], and [tuple(None)] raises *)
  buckets_bounds ←
    (if negb (final =? infinity)%float
     then raise (TypeError "'NoneType' object is not iterable")
     else mret buckets_bounds);
  let self_buckets :=
    foldl (fun d item => dict_set item 0 d) self_buckets (bounds_items buckets_bounds) in
  mret {| Histogram_base := base;
          Histogram__sum := self_sum;
          Histogram__count := self_count;
          Histogram__buckets := self_buckets |}.

(** [Summary.__init__] also starts with an unconditional [raise]. The
    statement after it calls [super(Histogram, self)] on an object that
    is no [Histogram], which Python rejects with a [TypeError]. *)
Record Summary : Type := mkSummary { Summary_base : BasePushpromMetricSender }.

Definition Summary_init (credentials : Credentials) (metric_name : string)
    (help_string : pyval) : Result Summary :=
  raise (A := unit) (NotImplementedError "Kindly sorry: this class is not implemented yet.");;
  raise (TypeError "super(type, obj): obj must be an instance or subtype of type").

(** ** Sending *)

Section Sending.

(** The outcome of a call of [requests.post], given the calls made
    before it: the response it returns, or the message of the exception
    it raises. That covers the exceptions [requests] raises before it
    transmits anything (a URL it cannot use, a body it cannot serialise,
    such as one holding NaN) as well as those of the connection. Nothing
    is assumed about it. *)
Variable transport : list Request → Request → string + Response.

(** [requests.post(url, json=json)]: the call is logged with its
    arguments, whatever its outcome. *)
Definition requests_post {O : Type} (url : string) (json : pyval) : Method O Response :=
  fun st =>
    let rq := mkRequest url json in
    let st' := mkFrame (self st) (sent st ++ [rq]) in
    match transport (sent st) rq with
    | inl msg => (inl (RequestException msg), st')
    | inr response => (inr response, st')
    end.

(** [BasePushpromMetricSender.send]. *)
Definition send (value labels : pyval) : Method BasePushpromMetricSender Response :=
  (if isinstance_dict labels
   then throw (NoLabelsError "Can not send metrics: labels should be a type of dict.")
   else mret tt);;
  n ← lift (py_len labels);
  (if n <? 1
   then throw (NoLabelsError "Can not send metrics: no labels provided.")
   else mret tt);;
  self_metric_type ← getattr metric_type;
  self_metric_name ← getattr metric_name;
  self_help ← getattr help;
  let json := PyDict (list_to_map [
    ("type", PyStr self_metric_type);
    ("name", PyStr self_metric_name);
    ("help", PyStr self_help);
    ("method", PyStr "add");
    ("value", value);
    ("labels", labels)
  ]) in
  self_url ← getattr url;
  response ← requests_post self_url json;
  mret response.

(** [Gauge.send_gauge] and [Counter.send_counter]. *)
Definition Gauge_send_gauge (labels : pyval) : Method Gauge Response :=
  self_counter ← getattr Gauge__counter;
  super (send (PyFloat self_counter) labels).

Definition Counter_send_counter (labels : pyval) : Method Counter Response :=
  self_counter ← getattr Counter__counter;
  super (send (PyInt self_counter) labels).

End Sending.

(** ** Sequences of calls on one object *)

(** Run [f x] for each [x] in order, stopping at the first exception. *)
Fixpoint for_each {O A : Type} (f : A → Method O unit) (xs : list A) : Method O unit :=
  match xs with
  | [] => mret tt
  | x :: xs' => f x;; for_each f xs'
  end.

(** The calls a client can make on a [Gauge] that change it. *)
Inductive Gauge_call : Type :=
| Call_increase_by (value : float)
| Call_decrease_by (value : float).

Definition Gauge_call_run (c : Gauge_call) : Method Gauge unit :=
  match c with
  | Call_increase_by v => Gauge_increase_by v
  | Call_decrease_by v => Gauge_decrease_by v
  end.

Definition Gauge_call_value (c : Gauge_call) : float :=
  match c with Call_increase_by v | Call_decrease_by v => v end.

(** The calls a client can make on a [Counter]. *)
Inductive Counter_call : Type :=
| Call_increase
| Call_reset
| Call_send_counter (labels : pyval).

Definition Counter_call_run (transport : list Request → Request → string + Response)
    (c : Counter_call) : Method Counter unit :=
  match c with
  | Call_increase => Counter_increase
  | Call_reset => Counter_reset
  | Call_send_counter labels => Counter_send_counter transport labels;; mret tt
  end.

Definition is_increase (c : Counter_call) : bool :=
  match c with Call_increase => true | _ => false end.

Definition is_reset (c : Counter_call) : bool :=
  match c with Call_reset => true | _ => false end.

(** How many of the calls are [increase]. *)
Definition increases (calls : list Counter_call) : Z :=
  Z.of_nat (length (filter (λ c, is_increase c = true) calls)).

(** Whether a string contains a colon. *)
Fixpoint has_colon (s : string) : bool :=
  match s with
  | EmptyString => false
  | String c s' => String.eqb (String c EmptyString) ":" || has_colon s'
  end.

(** ** Predicates used in the statements *)

Definition raises_ValueError {A : Type} (r : Result A) : Prop :=
  ∃ e, r = inl e ∧ is_ValueError e = true.

Definition raises_TypeError {A : Type} (r : Result A) : Prop :=
  ∃ msg, r = inl (TypeError msg).

Definition succeeds {A : Type} (r : Result A) : Prop :=
  ∃ a, r = inr a.

(** What the three sender constructors promise about their errors, for
    the result [r] of a call with the given name and help. *)
Definition construction_contract {A : Type}
    (metric_name : string) (help_string : pyval) (r : Result A) : Prop :=
  (raises_ValueError r ↔ metric_name = "")
  ∧ (metric_name ≠ "" → (raises_TypeError r ↔ isinstance_str help_string = false))
  ∧ (metric_name ≠ "" → isinstance_str help_string = true → succeeds r).

(** The four metric types the base constructor recognises. *)
Definition metric_types : list string := ["counter"; "gauge"; "histogram"; "summary"].

(** The JSON document [send] builds. *)
Definition send_json (s : BasePushpromMetricSender) (value labels : pyval) : pyval :=
  PyDict (list_to_map [
    ("type", PyStr (metric_type s));
    ("name", PyStr (metric_name s));
    ("help", PyStr (help s));
    ("method", PyStr "add");
    ("value", value);
    ("labels", labels)
  ]).

(** A call of [requests.post] as a [Counter] with base attributes [b]
    makes it: with the URL of [b] and the document of [b], a non-negative
    integer as value and labels that are no [dict]. *)
Definition counter_request (b : BasePushpromMetricSender) (rq : Request) : Prop :=
  ∃ (k : Z) (labels : pyval),
    rq = mkRequest (url b) (send_json b (PyInt k) labels)
    ∧ 0 ≤ k ∧ isinstance_dict labels = false.

(** Objects and a call used in the examples. *)
Definition demo_credentials : Credentials := Credentials_init "localhost" "9091".

Definition demo_sender : BasePushpromMetricSender :=
  mkBase "http://localhost:9091" "m" "gauge" "h".

Definition demo_labels : gmap string pyval := {[ "a" := PyStr "b" ]}.

(** ** Proof automation *)

(** Unfold the monad operations and compute. *)
Ltac run :=
  unfold mbind, mret, Result_bind, Result_ret, Method_bind, Method_ret,
    raise, throw, lift, getattr, setattr in *;
  cbn in *.

(** * Properties *)

(** ** The two monads *)

Lemma Result_bind_raise {A B : Type} (e : exn) (k : A → Result B) :
  (raise e ≫= k) = raise e.
Proof. reflexivity. Qed.

Lemma Result_bind_ret {A B : Type} (a : A) (k : A → Result B) :
  (mret a ≫= k) = k a.
Proof. reflexivity. Qed.

Lemma Method_bind_throw {O A B : Type} (e : exn) (k : A → Method O B) (st : Frame O) :
  (throw e ≫= k) st = (inl e, st).
Proof. reflexivity. Qed.

Lemma Method_bind_ret {O A B : Type} (a : A) (k : A → Method O B) (st : Frame O) :
  (mret a ≫= k) st = k a st.
Proof. reflexivity. Qed.

(** An exception ends a run of calls where it is raised. *)
Lemma times_throw {O : Type} (e : exn) (n : nat) (st : Frame O) :
  times (S n) (throw e) st = (inl e, st).
Proof. reflexivity. Qed.

(** Wrapping a successful base object never changes which exception a
    constructor raises. *)
Lemma bind_ret_inl {A B : Type} (r : Result A) (f : A → B) (e : exn) :
  (r ≫= λ a, mret (f a)) = inl e ↔ r = inl e.
Proof. destruct r as [e'|a]; run; split; congruence. Qed.

Lemma bind_ret_succeeds {A B : Type} (r : Result A) (f : A → B) :
  succeeds (r ≫= λ a, mret (f a)) ↔ succeeds r.
Proof.
  unfold succeeds. destruct r as [e|a]; run; split; intros [x Hx]; try discriminate.
  - by exists a.
  - by exists (f a).
Qed.

Lemma construction_contract_wrap {A B : Type} n h (r : Result A) (f : A → B) :
  construction_contract n h r →
  construction_contract n h (r ≫= λ a, mret (f a)).
Proof.
  unfold construction_contract, raises_ValueError, raises_TypeError.
  intros (Hv & Ht & Hs). split; [|split].
  - split.
    + intros (e & Hm & He). apply Hv. exists e. by apply bind_ret_inl in Hm.
    + intros Hn. apply Hv in Hn as (e & Hm & He). exists e. by rewrite bind_ret_inl.
  - intros Hn. split.
    + intros [msg Hm]. apply (Ht Hn). exists msg. by apply bind_ret_inl in Hm.
    + intros Hh. apply (Ht Hn) in Hh as [msg Hm]. exists msg. by apply bind_ret_inl.
  - intros Hn Hh. apply bind_ret_succeeds. by apply Hs.
Qed.

(** ** [Credentials] *)

(** C9: for every host and port string, the address of
    [Credentials(host, port)] is the string [http://], the host, a colon
    and the port; the constructor stores both fields verbatim; and
    [Credentials("localhost", "9091").address] is [http://localhost:9091].
    [address] is a function of the object alone, so it has no effect. *)
Theorem Credentials_address (h p : string) :
  address (Credentials_init h p) = "http://" +:+ h +:+ ":" +:+ p
  ∧ host (Credentials_init h p) = h
  ∧ port (Credentials_init h p) = p
  ∧ address (Credentials_init "localhost" "9091") = "http://localhost:9091".
Proof. repeat split. Qed.

Example address_localhost : address demo_credentials = "http://localhost:9091".
Proof. reflexivity. Qed.

(** ** [BasePushpromMetricSender.__init__] *)

Lemma nonempty_length (s : string) : s ≠ "" → (0 <? Z.of_nat (String.length s)) = true.
Proof. destruct s; [done | intros _; apply Z.ltb_lt; cbn; lia]. Qed.

(** With a non-empty name and a string help the constructor returns the
    object whose fields the source assigns. *)
Lemma init_success credentials n h t :
  n ≠ "" →
  BasePushpromMetricSender_init credentials n (PyStr h) t
  = inr (mkBase (address credentials) n
           (if bool_decide (t ∈ metric_types) then t else "gauge") h).
Proof.
  intros Hn. unfold BasePushpromMetricSender_init.
  rewrite (nonempty_length n Hn). cbn.
  do 3 f_equal.
  unfold metric_types.
  destruct (String.eqb_spec t "counter") as [->|H1]; [done|].
  destruct (String.eqb_spec t "gauge") as [->|H2]; [done|].
  destruct (String.eqb_spec t "histogram") as [->|H3]; [done|].
  destruct (String.eqb_spec t "summary") as [->|H4]; [done|].
  cbn. rewrite bool_decide_eq_false_2; [done|].
  rewrite !elem_of_cons, elem_of_nil. intuition congruence.
Qed.

Lemma init_bad_help credentials n h t :
  n ≠ "" → isinstance_str h = false →
  BasePushpromMetricSender_init credentials n h t
  = inl (TypeError "Field help should be str.").
Proof.
  intros Hn Hh. unfold BasePushpromMetricSender_init.
  rewrite (nonempty_length n Hn). by destruct h.
Qed.

Lemma init_contract credentials n h t :
  construction_contract n h (BasePushpromMetricSender_init credentials n h t).
Proof.
  unfold construction_contract, raises_ValueError, raises_TypeError, succeeds.
  destruct (decide (n = "")) as [->|Hn].
  - split; [|done]. split; [done|]. intros _. by eexists.
  - split; [|split].
    + split; [|done]. intros (e & Hm & He). exfalso.
      destruct (isinstance_str h) eqn:Hh.
      * destruct h; try discriminate Hh. by rewrite init_success in Hm.
      * rewrite init_bad_help in Hm by done. by inversion Hm; subst.
    + intros _. split.
      * intros [msg Hm]. destruct h; try reflexivity.
        by rewrite init_success in Hm.
      * intros Hh. eexists. by apply init_bad_help.
    + intros _ Hh. destruct h; try discriminate Hh.
      eexists. by apply init_success.
Qed.

Example init_bogus :
  BasePushpromMetricSender_init demo_credentials "m" (PyStr "h") "bogus" = inr demo_sender.
Proof. reflexivity. Qed.

Example init_empty_name_and_bad_help :
  BasePushpromMetricSender_init demo_credentials "" PyNone "gauge"
  = inl (ValueError "Field metric_name should not be empty!").
Proof. reflexivity. Qed.

Example Counter_init_int_help :
  Counter_init demo_credentials "m" (PyInt 3)
  = inl (TypeError "Field help should be str.").
Proof. reflexivity. Qed.

(** C4: constructing a [BasePushpromMetricSender], a [Counter] or a
    [Gauge] raises a [ValueError] exactly when the metric name is the
    empty string; for a non-empty name it raises a [TypeError] exactly
    when the help is not a [str]; and it succeeds for every non-empty name
    and [str] help. *)
Theorem construction_errors credentials name help_string tag :
  construction_contract name help_string
    (BasePushpromMetricSender_init credentials name help_string tag)
  ∧ construction_contract name help_string (Counter_init credentials name help_string)
  ∧ construction_contract name help_string (Gauge_init credentials name help_string).
Proof.
  split; [apply init_contract|].
  split; unfold Counter_init, Gauge_init;
    apply construction_contract_wrap, init_contract.
Qed.

(** C5: with a non-empty name and a [str] help, construction succeeds for
    every metric type string; a string that is none of [counter], [gauge],
    [histogram], [summary] is replaced by [gauge], and each of the four is
    stored unchanged. *)
Theorem metric_type_coercion credentials name help_text tag :
  name ≠ "" →
  ∃ s, BasePushpromMetricSender_init credentials name (PyStr help_text) tag = inr s
       ∧ (tag ∉ metric_types → metric_type s = "gauge")
       ∧ (tag ∈ metric_types → metric_type s = tag).
Proof.
  intros Hn. eexists. split; [by apply init_success|].
  cbn. split; intros Ht.
  - by rewrite bool_decide_eq_false_2.
  - by rewrite bool_decide_eq_true_2.
Qed.

Lemma metric_type_coercion_witness :
  "m" ≠ "" ∧
  ∃ s, BasePushpromMetricSender_init demo_credentials "m" (PyStr "h") "bogus" = inr s
       ∧ ("bogus" ∉ metric_types → metric_type s = "gauge")
       ∧ ("bogus" ∈ metric_types → metric_type s = "bogus").
Proof.
  split; [discriminate|].
  apply (metric_type_coercion demo_credentials "m" "h" "bogus"). discriminate.
Defined.

Example bogus_not_a_metric_type : "bogus" ∉ metric_types.
Proof. unfold metric_types. rewrite !elem_of_cons, elem_of_nil. intuition discriminate. Qed.

(** ** [Histogram] and [Summary] *)

(** C8: whatever the arguments, constructing a [Histogram] or a [Summary]
    raises [NotImplementedError]; neither constructor ever returns an
    instance. *)
Theorem stubs_not_implemented credentials name help_string buckets_bounds :
  Histogram_init credentials name help_string buckets_bounds
  = inl (NotImplementedError "Kindly sorry: this class is not implemented yet.")
  ∧ Summary_init credentials name help_string
  = inl (NotImplementedError "Kindly sorry: this class is not implemented yet.")
  ∧ ¬ succeeds (Histogram_init credentials name help_string buckets_bounds)
  ∧ ¬ succeeds (Summary_init credentials name help_string).
Proof.
  unfold Histogram_init, Summary_init.
  rewrite !Result_bind_raise.
  repeat split; intros [obj Hobj]; discriminate.
Qed.

Example sorted_example : sorted [2.5; 0.5; 1.0]%float = [0.5; 1.0; 2.5]%float.
Proof. reflexivity. Qed.

Example Histogram_default_buckets :
  Histogram_init demo_credentials "m" (PyStr "h") default_buckets
  = inl (NotImplementedError "Kindly sorry: this class is not implemented yet.").
Proof. reflexivity. Qed.

(** ** [Counter] *)

Lemma Counter_init_success credentials n h :
  n ≠ "" →
  Counter_init credentials n (PyStr h)
  = inr (mkCounter (mkBase (address credentials) n "counter" h) 0).
Proof. intros Hn. unfold Counter_init. by rewrite init_success. Qed.

Lemma increase_step (c : Counter) wire :
  Counter_increase (mkFrame c wire)
  = (inr tt, mkFrame (mkCounter (Counter_base c) (Counter__counter c + 1)) wire).
Proof. reflexivity. Qed.

(** [N] calls of [increase] add [N] and touch nothing else. *)
Lemma increase_times (N : nat) : ∀ (c : Counter) wire,
  times N Counter_increase (mkFrame c wire)
  = (inr tt, mkFrame (mkCounter (Counter_base c) (Counter__counter c + Z.of_nat N)) wire).
Proof.
  induction N as [|N IH]; intros [b x] wire.
  - cbn. by rewrite Z.add_0_r.
  - change (times (S N) Counter_increase) with (Counter_increase;; times N Counter_increase).
    unfold mbind, Method_bind. rewrite increase_step, IH. cbn.
    do 3 f_equal. lia.
Qed.

(** C6: a freshly constructed [Counter] reads 0 through its [counter]
    property; [N] calls of [increase] on it return without an exception,
    after which the property reads [N] and nothing else has changed; and
    [reset], called in any state, makes the property read 0 (in
    particular after those [N] calls). *)
Theorem Counter_counts credentials name help_text :
  name ≠ "" →
  ∃ c, Counter_init credentials name (PyStr help_text) = inr c
       ∧ Counter_counter c = 0
       ∧ (∀ (N : nat) wire,
            (times N Counter_increase (mkFrame c wire)).1 = inr tt
            ∧ Counter_counter (self (times N Counter_increase (mkFrame c wire)).2)
              = Z.of_nat N
            ∧ Counter_base (self (times N Counter_increase (mkFrame c wire)).2)
              = Counter_base c
            ∧ sent (times N Counter_increase (mkFrame c wire)).2 = wire)
       ∧ (∀ st : Frame Counter,
            (Counter_reset st).1 = inr tt
            ∧ Counter_counter (self (Counter_reset st).2) = 0)
       ∧ (∀ (N : nat) wire,
            Counter_counter
              (self ((times N Counter_increase;; Counter_reset) (mkFrame c wire)).2) = 0).
Proof.
  intros Hn. eexists. split; [by apply Counter_init_success|].
  split; [done|]. split; [|split].
  - intros N wire. rewrite increase_times. unfold Counter_counter. cbn.
    repeat split.
  - done.
  - intros N wire. unfold mbind, Method_bind. by rewrite increase_times.
Qed.

Lemma Counter_counts_witness :
  "m" ≠ "" ∧
  ∃ c, Counter_init demo_credentials "m" (PyStr "h") = inr c
       ∧ Counter_counter c = 0
       ∧ (∀ (N : nat) wire,
            (times N Counter_increase (mkFrame c wire)).1 = inr tt
            ∧ Counter_counter (self (times N Counter_increase (mkFrame c wire)).2)
              = Z.of_nat N
            ∧ Counter_base (self (times N Counter_increase (mkFrame c wire)).2)
              = Counter_base c
            ∧ sent (times N Counter_increase (mkFrame c wire)).2 = wire)
       ∧ (∀ st : Frame Counter,
            (Counter_reset st).1 = inr tt
            ∧ Counter_counter (self (Counter_reset st).2) = 0)
       ∧ (∀ (N : nat) wire,
            Counter_counter
              (self ((times N Counter_increase;; Counter_reset) (mkFrame c wire)).2) = 0).
Proof.
  split; [discriminate|].
  apply (Counter_counts demo_credentials "m" "h"). discriminate.
Defined.

Example three_increases :
  Counter_counter
    (self (times 3 Counter_increase
             (mkFrame (mkCounter demo_sender 0) [])).2) = 3.
Proof. reflexivity. Qed.

(** ** [Gauge] *)

Lemma Gauge_init_success credentials n h :
  n ≠ "" →
  Gauge_init credentials n (PyStr h)
  = inr (mkGauge (mkBase (address credentials) n "gauge" h) 0.0%float).
Proof. intros Hn. unfold Gauge_init. by rewrite init_success. Qed.

(** C7: a freshly constructed [Gauge] reads 0.0; [increase_by(v)] turns an
    accumulator [x] into the binary64 sum [x + v] and [decrease_by(v)]
    into the binary64 difference [x - v], changing nothing else; and
    [increase_by(3.5)] followed by [decrease_by(1.0)] on a fresh gauge
    leaves it reading 2.5. *)
Theorem Gauge_accumulates credentials name help_text :
  name ≠ "" →
  ∃ g, Gauge_init credentials name (PyStr help_text) = inr g
       ∧ Gauge_counter g = 0.0%float
       ∧ (∀ (st : Frame Gauge) (v : float),
            Gauge_increase_by v st
            = (inr tt, mkFrame (mkGauge (Gauge_base (self st))
                                  (Gauge_counter (self st) + v)%float) (sent st)))
       ∧ (∀ (st : Frame Gauge) (v : float),
            Gauge_decrease_by v st
            = (inr tt, mkFrame (mkGauge (Gauge_base (self st))
                                  (Gauge_counter (self st) - v)%float) (sent st)))
       ∧ (∀ wire,
            (Gauge_increase_by 3.5;; Gauge_decrease_by 1.0) (mkFrame g wire)
            = (inr tt, mkFrame (mkGauge (Gauge_base g) 2.5%float) wire)).
Proof.
  intros Hn. eexists. split; [by apply Gauge_init_success|].
  repeat split.
Qed.

Lemma Gauge_accumulates_witness :
  "m" ≠ "" ∧
  ∃ g, Gauge_init demo_credentials "m" (PyStr "h") = inr g
       ∧ Gauge_counter g = 0.0%float
       ∧ (∀ (st : Frame Gauge) (v : float),
            Gauge_increase_by v st
            = (inr tt, mkFrame (mkGauge (Gauge_base (self st))
                                  (Gauge_counter (self st) + v)%float) (sent st)))
       ∧ (∀ (st : Frame Gauge) (v : float),
            Gauge_decrease_by v st
            = (inr tt, mkFrame (mkGauge (Gauge_base (self st))
                                  (Gauge_counter (self st) - v)%float) (sent st)))
       ∧ (∀ wire,
            (Gauge_increase_by 3.5;; Gauge_decrease_by 1.0) (mkFrame g wire)
            = (inr tt, mkFrame (mkGauge (Gauge_base g) 2.5%float) wire)).
Proof.
  split; [discriminate|].
  apply (Gauge_accumulates demo_credentials "m" "h"). discriminate.
Defined.

(** Binary64 addition is not exact: the accumulator follows the machine's
    arithmetic, not the reals. *)
Example Gauge_rounds :
  Gauge_counter
    (self ((Gauge_increase_by 0.1;; Gauge_increase_by 0.2)
             (mkFrame (mkGauge demo_sender 0.0) [])).2)
  = 0.30000000000000004%float.
Proof. reflexivity. Qed.

(** ** [send], [send_gauge], [send_counter] *)

Section SendingProperties.

Variable transport : list Request → Request → string + Response.

(** The first statement of [send] stops every call whose labels are a
    [dict], before anything else happens. *)
Lemma send_dict value (d : gmap string pyval) (st : Frame BasePushpromMetricSender) :
  send transport value (PyDict d) st
  = (inl (NoLabelsError "Can not send metrics: labels should be a type of dict."), st).
Proof. reflexivity. Qed.

(** What [send] does with labels that are no [dict] and have a positive
    length: one call of [requests.post], with the six fields, whose
    response (or exception) is the result. *)
Lemma send_posts value labels (n : Z) (st : Frame BasePushpromMetricSender) :
  isinstance_dict labels = false →
  py_len labels = inr n → 1 ≤ n →
  send transport value labels st
  = (match transport (sent st)
             (mkRequest (url (self st)) (send_json (self st) value labels)) with
     | inl msg => inl (RequestException msg)
     | inr response => inr response
     end,
     mkFrame (self st)
       (sent st ++ [mkRequest (url (self st)) (send_json (self st) value labels)])).
Proof.
  intros Hd Hlen Hn. unfold send. rewrite Hd.
  unfold mbind, Method_bind, mret, Method_ret, lift. rewrite Hlen.
  destruct (Z.ltb_spec n 1) as [?|_]; [lia|].
  unfold getattr, requests_post, send_json.
  by destruct (transport _ _).
Qed.

(** A sequence of length 0 that is no [dict] is refused by the second
    check. *)
Lemma send_empty value labels (st : Frame BasePushpromMetricSender) :
  isinstance_dict labels = false →
  py_len labels = inr 0 →
  send transport value labels st
  = (inl (NoLabelsError "Can not send metrics: no labels provided."), st).
Proof.
  intros Hd Hlen. unfold send. rewrite Hd.
  unfold mbind, Method_bind, mret, Method_ret, lift. by rewrite Hlen.
Qed.

(** A value without a length makes [len] raise. *)
Lemma send_no_len value labels e (st : Frame BasePushpromMetricSender) :
  isinstance_dict labels = false →
  py_len labels = inl e →
  send transport value labels st = (inl e, st).
Proof.
  intros Hd Hlen. unfold send. rewrite Hd.
  unfold mbind, Method_bind, mret, Method_ret, lift. by rewrite Hlen.
Qed.

(** The six fields of the document, by key. *)
Lemma send_json_fields (s : BasePushpromMetricSender) value labels :
  ∃ d : gmap string pyval,
    send_json s value labels = PyDict d
    ∧ d !! "type" = Some (PyStr (metric_type s))
    ∧ d !! "name" = Some (PyStr (metric_name s))
    ∧ d !! "help" = Some (PyStr (help s))
    ∧ d !! "method" = Some (PyStr "add")
    ∧ d !! "value" = Some value
    ∧ d !! "labels" = Some labels
    ∧ size d = 6%nat.
Proof. eexists. split; [reflexivity|]. repeat split. Qed.

Lemma py_len_nonneg v n : py_len v = inr n → 0 ≤ n.
Proof. destruct v; cbn; intros [= <-]; lia. Qed.

Lemma py_len_TypeError v e : py_len v = inl e → ∃ msg, e = TypeError msg.
Proof. destruct v; cbn; intros [= <-]; by eexists. Qed.

(** [super] forwards the result of the base method and keeps the
    subclass fields. *)
Lemma super_run {O B A : Type} `{Inherits O B} (m : Method B A) (st : Frame O) :
  super m st
  = ((m (mkFrame (upcast (self st)) (sent st))).1,
     mkFrame (with_base (self (m (mkFrame (upcast (self st)) (sent st))).2) (self st))
       (sent (m (mkFrame (upcast (self st)) (sent st))).2)).
Proof. unfold super. by destruct (m _). Qed.

(** If [send] raises [NoLabelsError], the frame it ends in is the one it
    started in. *)
Lemma send_NoLabelsError_frame value labels msg
    (st st' : Frame BasePushpromMetricSender) :
  send transport value labels st = (inl (NoLabelsError msg), st') → st' = st.
Proof.
  intros Hs.
  destruct (isinstance_dict labels) eqn:Hd.
  { destruct labels; try discriminate Hd. rewrite send_dict in Hs. congruence. }
  destruct (py_len labels) as [e|n] eqn:Hlen.
  { rewrite (send_no_len _ _ e) in Hs by done.
    apply py_len_TypeError in Hlen as [m ->]. congruence. }
  pose proof (py_len_nonneg _ _ Hlen) as Hn.
  destruct (decide (n = 0)) as [->|Hn0].
  { rewrite send_empty in Hs by done. congruence. }
  rewrite (send_posts _ _ n) in Hs by (done || lia).
  destruct (transport _ _); congruence.
Qed.

(** C1: the claim is that [send] with a non-empty mapping of labels
    issues one POST and returns the response. The code does the
    opposite: for the sender [demo_sender], the value 1.0 and the labels
    [{"a": "b"}] it raises [NoLabelsError] and sends nothing, and so it
    does for every sender, every value and every [dict] of labels. *)
Theorem send_rejects_every_dict :
  send transport (PyFloat 1.0) (PyDict demo_labels) (mkFrame demo_sender [])
  = (inl (NoLabelsError "Can not send metrics: labels should be a type of dict."),
     mkFrame demo_sender [])
  ∧ ∀ value (d : gmap string pyval) (st : Frame BasePushpromMetricSender),
      send transport value (PyDict d) st
      = (inl (NoLabelsError "Can not send metrics: labels should be a type of dict."), st).
Proof. split; [|intros value d st]; apply send_dict. Qed.

(** C2: the claim is that [send] raises [NoLabelsError] whenever the
    labels are not a [dict]. The code does not: a non-empty list of
    labels is handed to [requests.post] (one call, the six fields, the
    result is its response or its exception, never [NoLabelsError]),
    and [None] makes [len] raise a [TypeError]. *)
Theorem send_accepts_non_dict value (st : Frame BasePushpromMetricSender) :
  (∀ x l,
     send transport value (PyList (x :: l)) st
     = (match transport (sent st)
                (mkRequest (url (self st)) (send_json (self st) value (PyList (x :: l)))) with
        | inl msg => inl (RequestException msg)
        | inr response => inr response
        end,
        mkFrame (self st)
          (sent st ++ [mkRequest (url (self st))
                         (send_json (self st) value (PyList (x :: l)))])))
  ∧ (∀ x l msg, (send transport value (PyList (x :: l)) st).1 ≠ inl (NoLabelsError msg))
  ∧ send transport value PyNone st
    = (inl (TypeError "object of type 'NoneType' has no len()"), st).
Proof.
  assert (Hpost : ∀ x l,
     send transport value (PyList (x :: l)) st
     = (match transport (sent st)
                (mkRequest (url (self st)) (send_json (self st) value (PyList (x :: l)))) with
        | inl msg => inl (RequestException msg)
        | inr response => inr response
        end,
        mkFrame (self st)
          (sent st ++ [mkRequest (url (self st))
                         (send_json (self st) value (PyList (x :: l)))]))).
  { intros x l. apply (send_posts _ _ (Z.of_nat (S (length l)))); [done|done|lia]. }
  split; [exact Hpost|]. split; [|by apply send_no_len].
  intros x l msg. rewrite Hpost. cbn. by destruct (transport _ _).
Qed.

(** C3: with an empty mapping as labels, [send], [send_counter] and
    [send_gauge] raise [NoLabelsError] whatever the value or the
    accumulator, and leave the frame as it was. *)
Theorem empty_labels_rejected :
  (∀ value (st : Frame BasePushpromMetricSender),
     send transport value (PyDict ∅) st
     = (inl (NoLabelsError "Can not send metrics: labels should be a type of dict."), st))
  ∧ (∀ st : Frame Counter,
       Counter_send_counter transport (PyDict ∅) st
       = (inl (NoLabelsError "Can not send metrics: labels should be a type of dict."), st))
  ∧ (∀ st : Frame Gauge,
       Gauge_send_gauge transport (PyDict ∅) st
       = (inl (NoLabelsError "Can not send metrics: labels should be a type of dict."), st)).
Proof.
  split; [intros; apply send_dict|].
  split; intros [[b x] wire]; reflexivity.
Qed.

(** C10: whenever [send], [send_counter] or [send_gauge] raises
    [NoLabelsError], the frame after the call equals the frame before it:
    no request has been added and every attribute of the sender,
    accumulator included, is unchanged. *)
Theorem NoLabelsError_before_any_request value labels msg :
  (∀ st st' : Frame BasePushpromMetricSender,
     send transport value labels st = (inl (NoLabelsError msg), st') → st' = st)
  ∧ (∀ st st' : Frame Counter,
       Counter_send_counter transport labels st = (inl (NoLabelsError msg), st') → st' = st)
  ∧ (∀ st st' : Frame Gauge,
       Gauge_send_gauge transport labels st = (inl (NoLabelsError msg), st') → st' = st).
Proof.
  split; [intros st st'; apply send_NoLabelsError_frame|].
  split; intros [[b x] wire] st';
    unfold Counter_send_counter, Gauge_send_gauge, mbind, Method_bind, getattr;
    rewrite super_run; cbn;
    match goal with |- context [send ?t ?v ?l ?f] => destruct (send t v l f) as [r f'] eqn:Hs end;
    cbn; intros [= -> <-];
    by rewrite (send_NoLabelsError_frame _ _ _ _ _ Hs).
Qed.

End SendingProperties.

Lemma construction_errors_witness :
  raises_ValueError (BasePushpromMetricSender_init demo_credentials "" (PyStr "h") "gauge")
  ∧ raises_TypeError (Counter_init demo_credentials "m" (PyInt 3))
  ∧ succeeds (Gauge_init demo_credentials "m" (PyStr "h")).
Proof.
  destruct (construction_errors demo_credentials "" (PyStr "h") "gauge") as ((Hv & _) & _).
  destruct (construction_errors demo_credentials "m" (PyInt 3) "gauge") as (_ & (_ & Ht & _) & _).
  destruct (construction_errors demo_credentials "m" (PyStr "h") "gauge") as (_ & _ & (_ & _ & Hs)).
  split; [by apply Hv|]. split; [by apply Ht|by apply Hs].
Defined.

Lemma NoLabelsError_before_any_request_witness :
  (send always_ok (PyInt 1) (PyList []) (mkFrame demo_sender [])).2
  = mkFrame demo_sender [].
Proof.
  apply (proj1 (NoLabelsError_before_any_request always_ok (PyInt 1) (PyList [])
                  "Can not send metrics: no labels provided.")).
  reflexivity.
Defined.

(** The same call when [requests.post] raises: the call is made, and
    its exception is the result. *)
Example send_list_unreachable :
  send unreachable (PyInt 7) (PyList [PyStr "a"]) (mkFrame demo_sender [])
  = (inl (RequestException "Connection refused"),
     mkFrame demo_sender
       [mkRequest "http://localhost:9091" (send_json demo_sender (PyInt 7) (PyList [PyStr "a"]))]).
Proof. reflexivity. Qed.

Example send_counter_dict :
  Counter_send_counter always_ok (PyDict demo_labels) (mkFrame (mkCounter demo_sender 5) [])
  = (inl (NoLabelsError "Can not send metrics: labels should be a type of dict."),
     mkFrame (mkCounter demo_sender 5) []).
Proof. reflexivity. Qed.

Example send_gauge_string_labels :
  (Gauge_send_gauge always_ok (PyStr "x") (mkFrame (mkGauge demo_sender 2.5) [])).1
  = inr (mkResponse 200 "ok").
Proof. reflexivity. Qed.

(** * Further properties *)

(** ** What a successful construction establishes *)

Lemma init_inversion credentials n h t s :
  BasePushpromMetricSender_init credentials n h t = inr s →
  n ≠ "" ∧ h = PyStr (help s)
  ∧ s = mkBase (address credentials) n
          (if bool_decide (t ∈ metric_types) then t else "gauge") (help s).
Proof.
  intros Hs. destruct (decide (n = "")) as [->|Hn]; [discriminate Hs|].
  destruct (isinstance_str h) eqn:Hh.
  - destruct h; try discriminate Hh.
    rewrite init_success in Hs by done. by inversion Hs; subst.
  - by rewrite init_bad_help in Hs.
Qed.

Lemma coerced_type_recognised (t : string) :
  (if bool_decide (t ∈ metric_types) then t else "gauge") ∈ metric_types.
Proof.
  case_bool_decide; [done|].
  unfold metric_types. rewrite !elem_of_cons. tauto.
Qed.

(** X1: every sender that a constructor returns has a non-empty name, one
    of the four metric types, the help text it was given, and the address
    of its credentials as URL. *)
Theorem constructed_sender_invariant credentials name help_string tag s :
  BasePushpromMetricSender_init credentials name help_string tag = inr s →
  metric_name s = name ∧ name ≠ ""
  ∧ metric_type s ∈ metric_types
  ∧ help_string = PyStr (help s)
  ∧ url s = "http://" +:+ host credentials +:+ ":" +:+ port credentials.
Proof.
  intros Hs. apply init_inversion in Hs as (Hn & Hh & ->). cbn.
  repeat split; try done. apply coerced_type_recognised.
Qed.

Lemma constructed_sender_invariant_witness :
  metric_name demo_sender = "m" ∧ "m" ≠ ""
  ∧ metric_type demo_sender ∈ metric_types
  ∧ PyStr "h" = PyStr (help demo_sender)
  ∧ url demo_sender = "http://" +:+ host demo_credentials +:+ ":" +:+ port demo_credentials.
Proof.
  apply (constructed_sender_invariant demo_credentials "m" (PyStr "h") "bogus" demo_sender).
  reflexivity.
Defined.

(** X2: a [Counter] that was constructed has metric type [counter] and
    reads 0, a [Gauge] has metric type [gauge] and reads 0.0, whatever
    the name and help; both carry the address of their credentials. *)
Theorem subclass_fixes_metric_type credentials name help_string :
  (∀ c, Counter_init credentials name help_string = inr c →
        metric_type (Counter_base c) = "counter"
        ∧ url (Counter_base c) = address credentials
        ∧ metric_name (Counter_base c) = name
        ∧ Counter_counter c = 0)
  ∧ (∀ g, Gauge_init credentials name help_string = inr g →
          metric_type (Gauge_base g) = "gauge"
          ∧ url (Gauge_base g) = address credentials
          ∧ metric_name (Gauge_base g) = name
          ∧ Gauge_counter g = 0.0%float).
Proof.
  split; intros obj; unfold Counter_init, Gauge_init;
    destruct (BasePushpromMetricSender_init _ _ _ _) as [e|b] eqn:Hb;
    cbn; intros [= <-]; apply init_inversion in Hb as (_ & _ & ->); done.
Qed.

Lemma subclass_fixes_metric_type_witness :
  metric_type (Counter_base (mkCounter (mkBase "http://localhost:9091" "m" "counter" "h") 0))
  = "counter".
Proof.
  apply (proj1 (subclass_fixes_metric_type demo_credentials "m" (PyStr "h"))).
  reflexivity.
Defined.

(** ** Every outcome of [send] *)

Section SendingOutcomes.

Variable transport : list Request → Request → string + Response.

(** The four ways a call of [send] can go, in source order. *)
Lemma send_cases value labels (st : Frame BasePushpromMetricSender) :
  (isinstance_dict labels = true
   ∧ send transport value labels st
     = (inl (NoLabelsError "Can not send metrics: labels should be a type of dict."), st))
  ∨ (isinstance_dict labels = false
     ∧ ∃ msg, py_len labels = inl (TypeError msg)
              ∧ send transport value labels st = (inl (TypeError msg), st))
  ∨ (isinstance_dict labels = false ∧ py_len labels = inr 0
     ∧ send transport value labels st
       = (inl (NoLabelsError "Can not send metrics: no labels provided."), st))
  ∨ (isinstance_dict labels = false
     ∧ (∃ n, py_len labels = inr n ∧ 1 ≤ n)
     ∧ send transport value labels st
       = (match transport (sent st)
                  (mkRequest (url (self st)) (send_json (self st) value labels)) with
          | inl msg => inl (RequestException msg)
          | inr response => inr response
          end,
          mkFrame (self st)
            (sent st ++ [mkRequest (url (self st)) (send_json (self st) value labels)]))).
Proof.
  destruct (isinstance_dict labels) eqn:Hd.
  { left. split; [done|]. destruct labels; try discriminate Hd. apply send_dict. }
  right. destruct (py_len labels) as [e|n] eqn:Hlen.
  { left. split; [done|]. destruct (py_len_TypeError _ _ Hlen) as [msg ->].
    exists msg. split; [done|]. by apply send_no_len. }
  right. pose proof (py_len_nonneg _ _ Hlen) as Hn.
  destruct (decide (n = 0)) as [->|Hn0].
  { left. repeat split; try done. by apply send_empty. }
  right. split; [done|]. split; [exists n; split; [done|lia]|].
  apply (send_posts transport value labels n); [done|done|lia].
Qed.

(** The frame after [send]: unchanged, or one call longer. *)
Lemma send_frame_cases value labels (st : Frame BasePushpromMetricSender) :
  (send transport value labels st).2 = st
  ∨ (isinstance_dict labels = false
     ∧ (∃ n, py_len labels = inr n ∧ 1 ≤ n)
     ∧ (send transport value labels st).2
       = mkFrame (self st)
           (sent st ++ [mkRequest (url (self st)) (send_json (self st) value labels)])).
Proof.
  destruct (send_cases value labels st)
    as [(_ & ->)|[(_ & msg & _ & ->)|[(_ & _ & ->)|(Hd & Hn & ->)]]]; cbn; auto.
Qed.

(** X3: whatever the arguments and whatever the outcome, [send] leaves
    every attribute of the sender as it was, and the log of
    [requests.post] calls either stays the same or grows by exactly one
    call, with the sender's URL and the document built from the sender,
    the value and the labels. *)
Theorem send_keeps_sender value labels (st : Frame BasePushpromMetricSender) :
  self (send transport value labels st).2 = self st
  ∧ (sent (send transport value labels st).2 = sent st
     ∨ sent (send transport value labels st).2
       = sent st ++ [mkRequest (url (self st)) (send_json (self st) value labels)]).
Proof.
  destruct (send_cases value labels st)
    as [(_ & ->)|[(_ & msg & _ & ->)|[(_ & _ & ->)|(_ & _ & ->)]]]; cbn; auto.
Qed.

(** X4: [send] returns a response exactly when the labels are not a
    [dict], have a length of at least 1 and [requests.post] returns one;
    the frame then holds the unchanged sender and one more call. *)
Theorem send_returns_iff value labels response (st st' : Frame BasePushpromMetricSender) :
  send transport value labels st = (inr response, st')
  ↔ isinstance_dict labels = false
    ∧ (∃ n, py_len labels = inr n ∧ 1 ≤ n)
    ∧ transport (sent st) (mkRequest (url (self st)) (send_json (self st) value labels))
      = inr response
    ∧ st' = mkFrame (self st)
              (sent st ++ [mkRequest (url (self st)) (send_json (self st) value labels)]).
Proof.
  split.
  - intros Hs.
    destruct (send_cases value labels st)
      as [(_ & He)|[(_ & msg & _ & He)|[(_ & _ & He)|(Hd & Hn & He)]]];
      rewrite He in Hs; try discriminate Hs.
    destruct (transport _ _) as [msg|r] eqn:Ht; [discriminate Hs|].
    inversion Hs; subst. done.
  - intros (Hd & (n & Hlen & Hn) & Ht & ->).
    rewrite (send_posts transport value labels n) by done. by rewrite Ht.
Qed.

(** X5: [send] raises [NoLabelsError] exactly when the labels are a
    [dict] (empty or not) or have length 0. *)
Theorem send_NoLabelsError_iff value labels (st : Frame BasePushpromMetricSender) :
  (∃ msg, (send transport value labels st).1 = inl (NoLabelsError msg))
  ↔ isinstance_dict labels = true ∨ py_len labels = inr 0.
Proof.
  destruct (send_cases value labels st)
    as [(Hd & He)|[(Hd & m & Hl & He)|[(Hd & Hl & He)|(Hd & (n & Hl & Hn) & He)]]];
    rewrite He; cbn; split.
  - auto.
  - intros _. by eexists.
  - intros [msg [=]].
  - intros [H|H]; congruence.
  - auto.
  - intros _. by eexists.
  - intros [msg Hm]. destruct (transport _ _); discriminate Hm.
  - intros [H|H]; [congruence|]. rewrite Hl in H. inversion H. lia.
Qed.

(** X6: an exception of [requests.post] reaches the caller unchanged:
    [send] raises [RequestException msg] exactly when the labels pass
    both checks and [requests.post] raises with [msg]. *)
Theorem send_RequestException_iff value labels msg (st : Frame BasePushpromMetricSender) :
  (send transport value labels st).1 = inl (RequestException msg)
  ↔ isinstance_dict labels = false
    ∧ (∃ n, py_len labels = inr n ∧ 1 ≤ n)
    ∧ transport (sent st) (mkRequest (url (self st)) (send_json (self st) value labels))
      = inl msg.
Proof.
  destruct (send_cases value labels st)
    as [(Hd & He)|[(Hd & m & Hl & He)|[(Hd & Hl & He)|(Hd & (n & Hl & Hn) & He)]]];
    rewrite He; cbn; split; try discriminate.
  - intros (Hd' & _). congruence.
  - intros (_ & (n & Hn & _) & _). congruence.
  - intros (_ & (n & Hn & Hn1) & _). rewrite Hl in Hn. inversion Hn. lia.
  - intros Ht. destruct (transport _ _); inversion Ht; subst. eauto.
  - intros (_ & _ & ->). done.
Qed.

(** X8: [send] calls [requests.post] exactly when the labels are no
    [dict] and have a length of at least 1; in particular
    [requests.post] is never handed a [dict] of labels. Whether the call
    then transmits anything is its own outcome. *)
Theorem send_posts_iff value labels (st : Frame BasePushpromMetricSender) :
  sent (send transport value labels st).2 ≠ sent st
  ↔ isinstance_dict labels = false ∧ ∃ n, py_len labels = inr n ∧ 1 ≤ n.
Proof.
  split.
  - intros Hne. destruct (send_frame_cases value labels st) as [He|(Hd & Hn & _)].
    + by rewrite He in Hne.
    + done.
  - intros (Hd & n & Hlen & Hn).
    rewrite (send_posts transport value labels n) by done. cbn.
    intros Heq. apply (f_equal length) in Heq. rewrite length_app in Heq. cbn in Heq. lia.
Qed.

(** X7: from construction to the call of [requests.post]. When a sender
    built from credentials [(host, port)] is sent labels which are no
    [dict] and have a positive length, [send] makes exactly one call of
    [requests.post], with [http://host:port] as URL and a document of
    exactly six keys: the metric type (always one of the four), the
    name, the help and the labels as they were given, the constant method
    [add] and the value. Nothing is said about what [requests.post] does
    with them. *)
Theorem send_post_arguments credentials name help_string tag s value labels n wire :
  BasePushpromMetricSender_init credentials name help_string tag = inr s →
  isinstance_dict labels = false →
  py_len labels = inr n → 1 ≤ n →
  ∃ (d : gmap string pyval) (t : string),
    sent (send transport value labels (mkFrame s wire)).2
    = wire ++ [mkRequest ("http://" +:+ host credentials +:+ ":" +:+ port credentials)
                 (PyDict d)]
    ∧ dom d = {[ "type"; "name"; "help"; "method"; "value"; "labels" ]}
    ∧ d !! "type" = Some (PyStr t) ∧ t ∈ metric_types ∧ (tag ∈ metric_types → t = tag)
    ∧ d !! "name" = Some (PyStr name)
    ∧ d !! "help" = Some help_string
    ∧ d !! "method" = Some (PyStr "add")
    ∧ d !! "value" = Some value
    ∧ d !! "labels" = Some labels.
Proof.
  intros Hs Hd Hlen Hn.
  apply init_inversion in Hs as (Hname & -> & ->).
  rewrite (send_posts transport value labels n) by done.
  eexists _, _. split; [reflexivity|].
  split; [|repeat split].
  - unfold send_json. rewrite dom_list_to_map_L. cbn. set_solver.
  - apply coerced_type_recognised.
  - intros Ht. by rewrite bool_decide_eq_true_2.
Qed.

End SendingOutcomes.

Lemma send_returns_iff_witness :
  send always_ok (PyInt 7) (PyStr "x") (mkFrame demo_sender [])
  = (inr (mkResponse 200 "ok"),
     mkFrame demo_sender
       [mkRequest "http://localhost:9091" (send_json demo_sender (PyInt 7) (PyStr "x"))]).
Proof.
  apply (send_returns_iff always_ok (PyInt 7) (PyStr "x")).
  split; [reflexivity|]. split; [exists 1; split; [reflexivity|lia]|].
  split; reflexivity.
Defined.

Lemma send_NoLabelsError_iff_witness :
  ∃ msg, (send unreachable (PyInt 7) (PyStr "") (mkFrame demo_sender [])).1
         = inl (NoLabelsError msg).
Proof.
  apply (send_NoLabelsError_iff unreachable (PyInt 7) (PyStr "")).
  right. reflexivity.
Defined.

Lemma send_RequestException_iff_witness :
  (send unreachable (PyInt 7) (PyList [PyStr "a"]) (mkFrame demo_sender [])).1
  = inl (RequestException "Connection refused").
Proof.
  apply (send_RequestException_iff unreachable (PyInt 7) (PyList [PyStr "a"])).
  split; [reflexivity|]. split; [exists 1; split; [reflexivity|lia]|reflexivity].
Defined.

Lemma send_posts_iff_witness :
  isinstance_dict (PyList [PyStr "a"]) = false
  ∧ ∃ n, py_len (PyList [PyStr "a"]) = inr n ∧ 1 ≤ n.
Proof.
  apply (send_posts_iff always_ok (PyInt 7) (PyList [PyStr "a"]) (mkFrame demo_sender [])).
  discriminate.
Defined.

Lemma send_post_arguments_witness :
  ∃ (d : gmap string pyval) (t : string),
    sent (send always_ok (PyFloat 1.5) (PyList [PyStr "a"]) (mkFrame demo_sender [])).2
    = [] ++ [mkRequest ("http://" +:+ host demo_credentials +:+ ":" +:+ port demo_credentials)
               (PyDict d)]
    ∧ dom d = {[ "type"; "name"; "help"; "method"; "value"; "labels" ]}
    ∧ d !! "type" = Some (PyStr t) ∧ t ∈ metric_types ∧ ("bogus" ∈ metric_types → t = "bogus")
    ∧ d !! "name" = Some (PyStr "m")
    ∧ d !! "help" = Some (PyStr "h")
    ∧ d !! "method" = Some (PyStr "add")
    ∧ d !! "value" = Some (PyFloat 1.5)
    ∧ d !! "labels" = Some (PyList [PyStr "a"]).
Proof.
  apply (send_post_arguments always_ok demo_credentials "m" (PyStr "h") "bogus" demo_sender
           (PyFloat 1.5) (PyList [PyStr "a"]) 1 []); [reflexivity|reflexivity|reflexivity|lia].
Defined.

(** ** Sequences of calls on a [Counter] *)

(** [for_each] over two lists in a row. *)
Lemma for_each_app {O A : Type} (f : A → Method O unit) (xs ys : list A) (st : Frame O) :
  for_each f (xs ++ ys) st
  = match for_each f xs st with
    | (inl e, st') => (inl e, st')
    | (inr _, st') => for_each f ys st'
    end.
Proof.
  revert st. induction xs as [|x xs IH]; intros st; [done|].
  cbn. unfold mbind, Method_bind. destruct (f x st) as [[e|[]] st1]; [done|].
  apply IH.
Qed.

Section CounterSessions.

Variable transport : list Request → Request → string + Response.

(** [send_counter] in terms of [send] on the base attributes. *)
Lemma send_counter_run labels (c : Counter) wire :
  Counter_send_counter transport labels (mkFrame c wire)
  = ((send transport (PyInt (Counter__counter c)) labels (mkFrame (Counter_base c) wire)).1,
     mkFrame c
       (sent (send transport (PyInt (Counter__counter c)) labels
                (mkFrame (Counter_base c) wire)).2)).
Proof.
  unfold Counter_send_counter, mbind, Method_bind, getattr. cbn.
  rewrite super_run. cbn.
  destruct (send_frame_cases transport (PyInt (Counter__counter c)) labels
              (mkFrame (Counter_base c) wire)) as [->|(_ & _ & ->)];
    by destruct c.
Qed.

(** One call keeps the base attributes and a non-negative count, and adds
    at most one call of [requests.post]. *)
Lemma Counter_call_step (call : Counter_call) (c : Counter) wire :
  0 ≤ Counter__counter c →
  ∃ r c' new,
    Counter_call_run transport call (mkFrame c wire) = (r, mkFrame c' (wire ++ new))
    ∧ Counter_base c' = Counter_base c
    ∧ 0 ≤ Counter__counter c'
    ∧ Counter__counter c'
      = (if is_reset call then 0
         else if is_increase call then Counter__counter c + 1
         else Counter__counter c)
    ∧ Forall (counter_request (Counter_base c)) new.
Proof.
  intros Hc. destruct call as [| |labels].
  - exists (inr tt), (mkCounter (Counter_base c) (Counter__counter c + 1)), [].
    rewrite app_nil_r. cbn. repeat split; [lia|constructor].
  - exists (inr tt), (mkCounter (Counter_base c) 0), [].
    rewrite app_nil_r. cbn. repeat split; [lia|constructor].
  - cbn [Counter_call_run is_reset is_increase]. unfold mbind, Method_bind.
    rewrite send_counter_run.
    destruct (send_frame_cases transport (PyInt (Counter__counter c)) labels
                (mkFrame (Counter_base c) wire)) as [He|(Hd & _ & He)];
      destruct (send _ _ _ _) as [r st1]; cbn in He |- *; subst st1; cbn.
    + exists (match r with inl e => inl e | inr _ => inr tt end), c, [].
      rewrite app_nil_r. destruct r; repeat split; try done; constructor.
    + exists (match r with inl e => inl e | inr _ => inr tt end), c,
        [mkRequest (url (Counter_base c))
           (send_json (Counter_base c) (PyInt (Counter__counter c)) labels)].
      destruct r; repeat split; try done;
        (constructor; [by exists (Counter__counter c), labels|constructor]).
Qed.

(** X9: over any sequence of [increase], [reset] and [send_counter]
    calls, whether it runs to the end or stops at an exception, a
    [Counter] that starts non-negative stays non-negative, its base
    attributes never change, calls of [requests.post] made earlier stay
    in the log, and every call it adds has its URL, a non-negative
    integer as value and labels that are no [dict]. *)
Theorem Counter_session_invariant (calls : list Counter_call) (c : Counter) wire :
  0 ≤ Counter_counter c →
  ∃ r c' new,
    for_each (Counter_call_run transport) calls (mkFrame c wire)
    = (r, mkFrame c' (wire ++ new))
    ∧ Counter_base c' = Counter_base c
    ∧ 0 ≤ Counter_counter c'
    ∧ Forall (counter_request (Counter_base c)) new
    ∧ (length new ≤ length calls)%nat.
Proof.
  unfold Counter_counter.
  revert c wire. induction calls as [|call calls IH]; intros c wire Hc.
  - exists (inr tt), c, []. rewrite app_nil_r. repeat split; [done|constructor|done].
  - destruct (Counter_call_step call c wire Hc) as (r & c1 & new1 & Hrun & Hb & Hc1 & _ & Hnew1).
    assert (Hlen1 : (length new1 ≤ 1)%nat).
    { destruct call; cbn in Hrun; unfold mbind, Method_bind in Hrun.
      - inversion Hrun as [[Hr Hc' Hw]].
        apply (f_equal length) in Hw. rewrite length_app in Hw. lia.
      - inversion Hrun as [[Hr Hc' Hw]].
        apply (f_equal length) in Hw. rewrite length_app in Hw. lia.
      - rewrite send_counter_run in Hrun.
        destruct (send_frame_cases transport (PyInt (Counter__counter c)) labels
                    (mkFrame (Counter_base c) wire)) as [He|(_ & _ & He)];
          destruct (send _ _ _ _) as [r' st1]; cbn in He; subst st1;
          destruct r'; cbn in Hrun; inversion Hrun as [[Hr Hc' Hw]];
          apply (f_equal length) in Hw; rewrite !length_app in Hw; cbn in Hw; lia. }
    cbn [for_each]. unfold mbind at 1, Method_bind at 1. rewrite Hrun.
    destruct r as [e|[]].
    + exists (inl e), c1, new1. repeat split; try done. cbn. lia.
    + destruct (IH c1 (wire ++ new1) Hc1) as (r2 & c2 & new2 & Hrun2 & Hb2 & Hc2 & Hnew2 & Hlen2).
      exists r2, c2, (new1 ++ new2). rewrite Hrun2, app_assoc.
      repeat split; try done.
      * congruence.
      * apply Forall_app. split; [done|]. by rewrite <- Hb.
      * rewrite length_app. cbn. lia.
Qed.

(** The count after one call that returns. *)
Lemma Counter_call_count (call : Counter_call) (st st' : Frame Counter) r :
  Counter_call_run transport call st = (r, st') →
  Counter__counter (self st')
  = (if is_reset call then 0
     else if is_increase call then Counter__counter (self st) + 1
     else Counter__counter (self st)).
Proof.
  destruct st as [c wire]. intros Hrun.
  destruct (decide (0 ≤ Counter__counter c)) as [Hc|Hc].
  - destruct (Counter_call_step call c wire Hc) as (r1 & c1 & new1 & Hrun1 & _ & _ & Hk & _).
    rewrite Hrun1 in Hrun. by inversion Hrun; subst.
  - destruct call as [| |labels]; cbn in Hrun |- *.
    + by inversion Hrun; subst.
    + by inversion Hrun; subst.
    + unfold mbind, Method_bind in Hrun. rewrite send_counter_run in Hrun.
      destruct (send _ _ _ _) as [[e|resp] st1]; cbn in Hrun; by inversion Hrun; subst.
Qed.

Lemma increases_cons (call : Counter_call) (calls : list Counter_call) :
  increases (call :: calls) = (if is_increase call then 1 else 0) + increases calls.
Proof.
  unfold increases. rewrite filter_cons.
  destruct call; cbn; case_decide; try done; cbn; lia.
Qed.

Lemma Counter_count_no_reset (calls : list Counter_call) : ∀ (st st' : Frame Counter),
  Forall (λ call, is_reset call = false) calls →
  for_each (Counter_call_run transport) calls st = (inr tt, st') →
  Counter__counter (self st') = Counter__counter (self st) + increases calls.
Proof.
  induction calls as [|call calls IH]; intros st st' Hno Hrun.
  - cbn in Hrun. inversion Hrun; subst. unfold increases. cbn. lia.
  - apply Forall_cons in Hno as [Hcall Hno].
    cbn [for_each] in Hrun. unfold mbind at 1, Method_bind at 1 in Hrun.
    destruct (Counter_call_run transport call st) as [[e|[]] st1] eqn:Hstep;
      [discriminate Hrun|].
    rewrite (IH st1 st' Hno Hrun), (Counter_call_count _ _ _ _ Hstep), Hcall.
    rewrite increases_cons. destruct (is_increase call); lia.
Qed.

(** X10: when a sequence of calls runs to its end, the [Counter] reads
    the number of [increase] calls made after the last [reset] (on top of
    the starting count when there was no [reset]); [send_counter] calls in
    between change nothing. *)
Theorem Counter_counts_since_reset (pre post : list Counter_call) (st st' : Frame Counter) :
  Forall (λ call, is_reset call = false) post →
  (for_each (Counter_call_run transport) post st = (inr tt, st') →
   Counter_counter (self st') = Counter_counter (self st) + increases post)
  ∧ (for_each (Counter_call_run transport) (pre ++ Call_reset :: post) st = (inr tt, st') →
     Counter_counter (self st') = increases post).
Proof.
  intros Hno. split; [by apply Counter_count_no_reset|].
  rewrite for_each_app. intros Hrun.
  destruct (for_each (Counter_call_run transport) pre st) as [[e|[]] st1];
    [discriminate Hrun|].
  change (for_each (Counter_call_run transport) (Call_reset :: post) st1)
    with (for_each (Counter_call_run transport) post
            (mkFrame (mkCounter (Counter_base (self st1)) 0) (sent st1))) in Hrun.
  unfold Counter_counter. by rewrite (Counter_count_no_reset post _ _ Hno Hrun).
Qed.

End CounterSessions.

Lemma Counter_session_invariant_witness :
  ∃ r c' new,
    for_each (Counter_call_run always_ok)
      [Call_increase; Call_send_counter (PyList [PyStr "a"]); Call_increase;
       Call_send_counter (PyDict demo_labels); Call_reset]
      (mkFrame (mkCounter demo_sender 0) [])
    = (r, mkFrame c' ([] ++ new))
    ∧ Counter_base c' = Counter_base (mkCounter demo_sender 0)
    ∧ 0 ≤ Counter_counter c'
    ∧ Forall (counter_request (Counter_base (mkCounter demo_sender 0))) new
    ∧ (length new ≤ 5)%nat.
Proof.
  apply (Counter_session_invariant always_ok
           [Call_increase; Call_send_counter (PyList [PyStr "a"]); Call_increase;
            Call_send_counter (PyDict demo_labels); Call_reset]
           (mkCounter demo_sender 0) []).
  cbn. lia.
Defined.

Lemma Counter_counts_since_reset_witness :
  Counter_counter
    (self (for_each (Counter_call_run always_ok)
             ([Call_increase; Call_increase] ++ Call_reset ::
              [Call_increase; Call_send_counter (PyStr "x"); Call_increase; Call_increase])
             (mkFrame (mkCounter demo_sender 40) [])).2)
  = increases [Call_increase; Call_send_counter (PyStr "x"); Call_increase; Call_increase].
Proof.
  apply (proj2 (Counter_counts_since_reset always_ok [Call_increase; Call_increase]
                  [Call_increase; Call_send_counter (PyStr "x"); Call_increase; Call_increase]
                  (mkFrame (mkCounter demo_sender 40) []) _
                  ltac:(repeat constructor))).
  reflexivity.
Defined.

(** A session that stops early: the second call raises, the third is
    never made. *)
Example Counter_session_stops :
  for_each (Counter_call_run always_ok)
    [Call_increase; Call_send_counter (PyDict demo_labels); Call_increase]
    (mkFrame (mkCounter demo_sender 0) [])
  = (inl (NoLabelsError "Can not send metrics: labels should be a type of dict."),
     mkFrame (mkCounter demo_sender 1) []).
Proof. reflexivity. Qed.

(** ** Binary64 facts behind [Gauge] *)

Lemma float_sub_add_opp (x v : float) : (x - v = x + (- v))%float.
Proof.
  apply Prim2SF_inj. rewrite sub_spec, add_spec, opp_spec.
  unfold SF64sub, SF64add.
  destruct (Prim2SF x) as [sx|sx| |sx mx ex], (Prim2SF v) as [sy|sy| |sy my ey]; cbn;
    try reflexivity; try (destruct sx, sy; reflexivity).
Qed.

Lemma float_add_nan_l (v : float) : (nan + v = nan)%float.
Proof.
  apply Prim2SF_inj. rewrite add_spec.
  change (Prim2SF nan) with S754_nan. reflexivity.
Qed.

Lemma float_add_nan_r (x : float) : (x + nan = nan)%float.
Proof.
  apply Prim2SF_inj. rewrite add_spec.
  change (Prim2SF nan) with S754_nan. by destruct (Prim2SF x).
Qed.

Lemma float_sub_nan_l (v : float) : (nan - v = nan)%float.
Proof.
  apply Prim2SF_inj. rewrite sub_spec.
  change (Prim2SF nan) with S754_nan. reflexivity.
Qed.

Lemma float_sub_nan_r (x : float) : (x - nan = nan)%float.
Proof.
  apply Prim2SF_inj. rewrite sub_spec.
  change (Prim2SF nan) with S754_nan. by destruct (Prim2SF x).
Qed.

Lemma SFeqb_refl_finite s m e : SFeqb (S754_finite s m e) (S754_finite s m e) = true.
Proof.
  unfold SFeqb, SFcompare. destruct s; rewrite Z.compare_refl, Pos.compare_cont_refl; done.
Qed.

(** [is_finite] read through the specification of binary64: a zero or a
    finite non-zero number. *)
Lemma is_finite_spec (v : float) :
  is_finite v = true
  ↔ (∃ s, Prim2SF v = S754_zero s) ∨ (∃ s m e, Prim2SF v = S754_finite s m e).
Proof.
  unfold is_finite, is_nan, is_infinity.
  rewrite !FloatAxioms.eqb_spec, abs_spec.
  change (Prim2SF infinity) with (S754_infinity false).
  destruct (Prim2SF v) as [s|s| |s m e].
  - cbn. split; [intros _; left; by eexists|done].
  - destruct s; cbn; (split; [done|]); intros [[? [=]]|(?&?&?&[=])].
  - cbn. split; [done|]. intros [[? [=]]|(?&?&?&[=])].
  - rewrite SFeqb_refl_finite. cbn. split; [intros _; right; by eexists _, _, _|done].
Qed.

Lemma float_fresh_round_trip (v : float) :
  ((0 + v) - v)%float = (if is_finite v then 0%float else nan).
Proof.
  destruct (is_finite v) eqn:Hf.
  - apply is_finite_spec in Hf.
    apply Prim2SF_inj. rewrite sub_spec, add_spec.
    change (Prim2SF 0) with (S754_zero false).
    destruct Hf as [[s ->]|(s & m & e & ->)].
    + by destruct s.
    + cbn. rewrite Z.min_id.
      replace (cond_Zopp s (Z.pos (shl_align m e e).1)
               - cond_Zopp s (Z.pos (shl_align m e e).1)) with 0 by lia.
      reflexivity.
  - assert (Hn : ¬ ((∃ s, Prim2SF v = S754_zero s)
                    ∨ (∃ s m e, Prim2SF v = S754_finite s m e))).
    { rewrite <- is_finite_spec. congruence. }
    apply Prim2SF_inj. rewrite sub_spec, add_spec.
    change (Prim2SF 0) with (S754_zero false).
    change (Prim2SF nan) with S754_nan.
    destruct (Prim2SF v) as [s|s| |s m e]; try done.
    + destruct Hn. left. by eexists.
    + by destruct s.
    + destruct Hn. right. by eexists _, _, _.
Qed.

(** ** Sequences of calls on a [Gauge] *)

(** X11: [decrease_by(v)] does to a [Gauge] exactly what
    [increase_by(-v)] does, for every binary64 [v] (infinities, zeros of
    either sign and NaN included). *)
Theorem Gauge_decrease_by_opp (v : float) (st : Frame Gauge) :
  Gauge_decrease_by v st = Gauge_increase_by (- v)%float st.
Proof.
  unfold Gauge_decrease_by, Gauge_increase_by, setattr.
  by rewrite float_sub_add_opp.
Qed.

Lemma Gauge_call_step (c : Gauge_call) (g : Gauge) wire :
  Gauge_call_run c (mkFrame g wire)
  = (inr tt,
     mkFrame (mkGauge (Gauge_base g)
                (match c with
                 | Call_increase_by v => Gauge__counter g + v
                 | Call_decrease_by v => Gauge__counter g - v
                 end)%float) wire).
Proof. by destruct c. Qed.

Lemma Gauge_nan_stays (calls : list Gauge_call) : ∀ (b : BasePushpromMetricSender) wire,
  for_each Gauge_call_run calls (mkFrame (mkGauge b nan) wire)
  = (inr tt, mkFrame (mkGauge b nan) wire).
Proof.
  induction calls as [|c calls IH]; intros b wire; [done|].
  cbn [for_each]. unfold mbind, Method_bind. rewrite Gauge_call_step. cbn.
  destruct c; rewrite ?float_add_nan_l, ?float_sub_nan_l; apply IH.
Qed.

(** X12: NaN is absorbing. If the accumulator of a [Gauge] is NaN, or any
    call of a sequence of [increase_by] and [decrease_by] calls is given
    NaN, the gauge reads NaN after the sequence, whatever the other
    calls; the calls never raise and touch nothing else. *)
Theorem Gauge_nan_absorbing (calls : list Gauge_call) (g : Gauge) wire :
  Gauge_counter g = nan ∨ Exists (λ c, Gauge_call_value c = nan) calls →
  for_each Gauge_call_run calls (mkFrame g wire)
  = (inr tt, mkFrame (mkGauge (Gauge_base g) nan) wire).
Proof.
  unfold Gauge_counter. intros [Hg|Hex].
  - destruct g as [b x]. cbn in Hg |- *. subst x. apply Gauge_nan_stays.
  - revert g. induction Hex as [c calls Hc|c calls Hex IH]; intros g;
      cbn [for_each]; unfold mbind, Method_bind; rewrite Gauge_call_step.
    + destruct c as [v|v]; cbn in Hc; subst v;
        rewrite ?float_add_nan_r, ?float_sub_nan_r; apply Gauge_nan_stays.
    + rewrite IH. done.
Qed.

Lemma Gauge_nan_absorbing_witness :
  for_each Gauge_call_run
    [Call_increase_by 1.5; Call_decrease_by nan; Call_increase_by infinity]
    (mkFrame (mkGauge demo_sender 2.0) [])
  = (inr tt, mkFrame (mkGauge (Gauge_base (mkGauge demo_sender 2.0)) nan) []).
Proof.
  apply (Gauge_nan_absorbing
           [Call_increase_by 1.5; Call_decrease_by nan; Call_increase_by infinity]
           (mkGauge demo_sender 2.0) []).
  right. apply Exists_cons_tl, Exists_cons_hd. reflexivity.
Defined.

(** X13: on a gauge that reads 0.0, [increase_by(v)] followed by
    [decrease_by(v)] reads 0.0 again for every finite [v], and NaN when
    [v] is an infinity or NaN. *)
Theorem Gauge_fresh_round_trip (b : BasePushpromMetricSender) (v : float) wire :
  (Gauge_increase_by v;; Gauge_decrease_by v) (mkFrame (mkGauge b 0.0) wire)
  = (inr tt, mkFrame (mkGauge b (if is_finite v then 0.0 else nan)%float) wire).
Proof.
  unfold mbind, Method_bind, Gauge_increase_by, Gauge_decrease_by, setattr. cbn.
  by rewrite float_fresh_round_trip.
Qed.

(** Away from 0.0 the round trip can miss: binary64 rounds each step. *)
Example Gauge_round_trip_drifts :
  (Gauge_increase_by 0.2;; Gauge_decrease_by 0.2) (mkFrame (mkGauge demo_sender 0.1) [])
  = (inr tt, mkFrame (mkGauge demo_sender 0.10000000000000003) []).
Proof. reflexivity. Qed.

(** ** [send_gauge] and [send_counter] delegate to [send] *)

Section Delegation.

Variable transport : list Request → Request → string + Response.

Lemma send_gauge_run labels (g : Gauge) wire :
  Gauge_send_gauge transport labels (mkFrame g wire)
  = ((send transport (PyFloat (Gauge__counter g)) labels (mkFrame (Gauge_base g) wire)).1,
     mkFrame g
       (sent (send transport (PyFloat (Gauge__counter g)) labels
                (mkFrame (Gauge_base g) wire)).2)).
Proof.
  unfold Gauge_send_gauge, mbind, Method_bind, getattr. cbn.
  rewrite super_run. cbn.
  destruct (send_frame_cases transport (PyFloat (Gauge__counter g)) labels
              (mkFrame (Gauge_base g) wire)) as [->|(_ & _ & ->)];
    by destruct g.
Qed.

(** X15: [send_counter(labels)] has the result and the [requests.post]
    calls of [send(counter, labels)] on the same sender, with the count as a
    Python [int]; [send_gauge(labels)] those of [send(counter, labels)]
    with the accumulator as a [float]. Neither changes the accumulator or
    any other attribute, whatever the outcome. *)
Theorem subclass_send_delegates labels wire :
  (∀ c : Counter,
     Counter_send_counter transport labels (mkFrame c wire)
     = ((send transport (PyInt (Counter_counter c)) labels
           (mkFrame (Counter_base c) wire)).1,
        mkFrame c
          (sent (send transport (PyInt (Counter_counter c)) labels
                   (mkFrame (Counter_base c) wire)).2)))
  ∧ (∀ g : Gauge,
       Gauge_send_gauge transport labels (mkFrame g wire)
       = ((send transport (PyFloat (Gauge_counter g)) labels
             (mkFrame (Gauge_base g) wire)).1,
          mkFrame g
            (sent (send transport (PyFloat (Gauge_counter g)) labels
                     (mkFrame (Gauge_base g) wire)).2))).
Proof.
  split; intros obj; [apply send_counter_run|apply send_gauge_run].
Qed.


End Delegation.


(** ** Reading host and port back from an address *)

Lemma append_cons (c : Ascii.ascii) (s t : string) : String c s +:+ t = String c (s +:+ t).
Proof. reflexivity. Qed.

Lemma append_nil (t : string) : "" +:+ t = t.
Proof. reflexivity. Qed.

Lemma has_colon_app (h p : string) : has_colon (h +:+ ":" +:+ p) = true.
Proof.
  induction h as [|c h IH]; [done|].
  rewrite append_cons. cbn [has_colon]. rewrite IH. apply orb_true_r.
Qed.

(** Splitting at the last colon is unambiguous. *)
Lemma split_last_colon (h1 : string) : ∀ h2 p1 p2,
  has_colon p1 = false → has_colon p2 = false →
  h1 +:+ ":" +:+ p1 = h2 +:+ ":" +:+ p2 →
  h1 = h2 ∧ p1 = p2.
Proof.
  induction h1 as [|c1 h1 IH]; intros [|c2 h2] p1 p2 Hp1 Hp2 Heq.
  - rewrite !append_nil, !append_cons, !append_nil in Heq. by injection Heq as ->.
  - rewrite append_nil, (append_cons c2) in Heq.
    rewrite (append_cons _ "" p1), append_nil in Heq.
    injection Heq as _ ->. by rewrite has_colon_app in Hp1.
  - rewrite (append_nil (":" +:+ p2)), (append_cons c1) in Heq.
    rewrite (append_cons _ "" p2), append_nil in Heq.
    injection Heq as _ <-. by rewrite has_colon_app in Hp2.
  - rewrite (append_cons c1), (append_cons c2) in Heq.
    injection Heq as -> Heq. by destruct (IH h2 p1 p2 Hp1 Hp2 Heq) as [-> ->].
Qed.

(** X17: two credentials whose ports contain no colon have the same
    address only if they have the same host and the same port: the
    address determines both fields (hosts may contain colons). *)
Theorem address_injective (c1 c2 : Credentials) :
  has_colon (port c1) = false → has_colon (port c2) = false →
  address c1 = address c2 → c1 = c2.
Proof.
  intros Hp1 Hp2 Heq. destruct c1 as [h1 p1], c2 as [h2 p2].
  cbn [port] in Hp1, Hp2. unfold address in Heq. cbn [host port] in Heq.
  rewrite !append_cons, !append_nil in Heq. injection Heq as Heq.
  by destruct (split_last_colon h1 h2 p1 p2 Hp1 Hp2 Heq) as [-> ->].
Qed.

Lemma address_injective_witness :
  Credentials_init "localhost" "9091" = demo_credentials.
Proof.
  apply (address_injective (Credentials_init "localhost" "9091") demo_credentials);
    reflexivity.
Defined.

(** Without the condition on the ports the address is ambiguous. *)
Example address_ambiguous :
  address (Credentials_init "a" "b:c") = address (Credentials_init "a:b" "c")
  ∧ Credentials_init "a" "b:c" ≠ Credentials_init "a:b" "c".
Proof. split; [reflexivity|discriminate]. Qed.
